(** * Application-form backend ([main.py]): model and verified properties

    The backend accepts a job application over HTTP, validates it, stores
    the résumé in an upload directory and appends one row to a spreadsheet
    log ([applications.xlsx]).  This development embeds [main.py] function
    by function and proves the properties its specification states.

    Layout: the Python and library primitives the code calls ([str]
    methods, [pathlib], the [openpyxl] worksheet, the parsed JSON reply),
    then [main.py] itself, then the theorems. *)

From Stdlib Require Import ZArith Floats Ascii String DecimalString.
From stdpp Require Import gmap strings list fin_maps.

Open Scope string_scope.
Open Scope list_scope.
Open Scope nat_scope.

Set Warnings "-clear-no-such-hyp".

(** ** Python [str] methods used by the code

    A Python [str] is modelled as a Rocq [string]; characters are the 256
    one-byte code points. *)

Module PyStr.

(** [len(s)] as a Python integer. *)
Definition len (s : string) : Z := Z.of_nat (String.length s).

(** [s.rfind(c)] for a one-character needle: the highest index at which
    [c] occurs, [-1] when it does not occur. *)
Fixpoint rfind (s : string) (c : ascii) : Z :=
  match s with
  | EmptyString => (-1)%Z
  | String a s' =>
      let r := rfind s' c in
      if (0 <=? r)%Z then (r + 1)%Z
      else if Ascii.eqb a c then 0%Z else (-1)%Z
  end.

(** [s[i:]] for [0 <= i]. *)
Fixpoint slice_from (i : nat) (s : string) : string :=
  match i, s with
  | O, _ => s
  | S _, EmptyString => EmptyString
  | S i', String _ s' => slice_from i' s'
  end.

(** [s[:n]] for [0 <= n]. *)
Fixpoint slice_to (n : nat) (s : string) : string :=
  match n, s with
  | O, _ => EmptyString
  | S _, EmptyString => EmptyString
  | S n', String a s' => String a (slice_to n' s')
  end.

(** One character of [s.lower()]: the letters [A]..[Z] move to [a]..[z].
    Code points above 127 never lower to an ASCII letter of the
    extensions compared against, so they are left alone. *)
Definition lower_char (a : ascii) : ascii :=
  let n := nat_of_ascii a in
  if (65 <=? n)%nat && (n <=? 90)%nat then ascii_of_nat (n + 32) else a.

(** [s.lower()]. *)
Fixpoint lower (s : string) : string :=
  match s with
  | EmptyString => EmptyString
  | String a s' => String (lower_char a) (lower s')
  end.

(** [c.isspace()] on one-byte code points: tab, line feed, vertical tab,
    form feed, carriage return, the four separators 28..31, space, next
    line (133) and no-break space (160). *)
Definition isspace (a : ascii) : bool :=
  let n := nat_of_ascii a in
  ((9 <=? n)%nat && (n <=? 13)%nat) || ((28 <=? n)%nat && (n <=? 32)%nat)
  || (n =? 133)%nat || (n =? 160)%nat.

(** [s.lstrip()]. *)
Fixpoint lstrip (s : string) : string :=
  match s with
  | EmptyString => EmptyString
  | String a s' => if isspace a then lstrip s' else s
  end.

(** [s.rstrip()]. *)
Fixpoint rstrip (s : string) : string :=
  match s with
  | EmptyString => EmptyString
  | String a s' =>
      match rstrip s' with
      | EmptyString => if isspace a then EmptyString else String a EmptyString
      | r => String a r
      end
  end.

(** [s.strip()]. *)
Definition strip (s : string) : string := rstrip (lstrip s).

(** [sep.join(xs)]. *)
Fixpoint join (sep : string) (xs : list string) : string :=
  match xs with
  | [] => EmptyString
  | [x] => x
  | x :: rest => x +:+ sep +:+ join sep rest
  end.

(** [s.split(sep)] for a one-character separator: always at least one
    piece, empty pieces kept. *)
Fixpoint split (sep : ascii) (s : string) : list string :=
  match s with
  | EmptyString => [EmptyString]
  | String a s' =>
      if Ascii.eqb a sep then EmptyString :: split sep s'
      else match split sep s' with
           | [] => [String a EmptyString]
           | x :: xs => String a x :: xs
           end
  end.

(** [s.startswith(c)] for a one-character prefix. *)
Definition startswith (s : string) (c : ascii) : bool :=
  match s with
  | EmptyString => false
  | String a _ => Ascii.eqb a c
  end.

(** [c in s] for a one-character needle. *)
Fixpoint contains (s : string) (c : ascii) : bool :=
  match s with
  | EmptyString => false
  | String a s' => Ascii.eqb a c || contains s' c
  end.

(** [str(n)] for an [int]: decimal digits, a minus sign when negative. *)
Definition of_int (n : Z) : string := NilZero.string_of_int (Z.to_int n).

(** [x in xs] on a collection of strings. *)
Definition mem (x : string) (xs : list string) : bool :=
  existsb (String.eqb x) xs.

End PyStr.

(** ** [os.path] and [pathlib] (POSIX flavour) *)

Module Posixpath.

(** [os.path.basename(p)]: everything after the last slash. *)
Definition basename (p : string) : string :=
  let i := (PyStr.rfind p "/" + 1)%Z in
  PyStr.slice_from (Z.to_nat i) p.

End Posixpath.

Module Pathlib.

(** A parsed path: the directory part and the final component [name].
    [name] is empty for the paths that have none (["."], ["/"]). *)
Record Path := mkPath { parent : string; name : string }.

(** The final component [Path(s).name] of a path given as text: the text
    is cut at slashes, empty and ["."] pieces are dropped, and the last
    remaining piece is the name. *)
Definition name_of (s : string) : string :=
  let parts := filter (λ x, x ≠ "" ∧ x ≠ ".") (PyStr.split "/" s) in
  List.last parts "".

(** [Path(s)]: the parsed path of a text.  The directory part is the
    text of the components before the name, with a leading slash for an
    absolute path; the code never looks at it. *)
Definition of_text (s : string) : Path :=
  let parts := filter (λ x, x ≠ "" ∧ x ≠ ".") (PyStr.split "/" s) in
  mkPath ((if PyStr.startswith s "/" then "/" else "")
          +:+ PyStr.join "/" (removelast parts))
         (name_of s).

(** [PurePath.suffix] computed from the name, as [pathlib] does it:
<<
    i = name.rfind('.')
    if 0 < i < len(name) - 1: return name[i:]
    else: return ''
>> *)
Definition suffix_of_name (nm : string) : string :=
  let i := PyStr.rfind nm "." in
  if (0 <? i)%Z && (i <? PyStr.len nm - 1)%Z
  then PyStr.slice_from (Z.to_nat i) nm
  else "".

Definition suffix (p : Path) : string := suffix_of_name (name p).

(** [PurePath.with_suffix(suffix)] for a well-formed [suffix] argument
    (it starts with a dot and holds no slash, as [".bad.xlsx"] does):
    [ValueError] ([None]) on a path with an empty name, otherwise the old
    suffix is cut off the name and the new one appended. *)
Definition with_suffix (p : Path) (suf : string) : option Path :=
  let nm := name p in
  if bool_decide (nm = "") then None
  else
    let old_suffix := suffix p in
    Some (mkPath (parent p)
            (if bool_decide (old_suffix = "") then nm +:+ suf
             else PyStr.slice_to
                    (String.length nm - String.length old_suffix) nm
                  +:+ suf)).

End Pathlib.

(** Paths key the model of the disk. *)
#[global] Instance Path_eq_dec : EqDecision Pathlib.Path.
Proof. solve_decision. Defined.

#[global] Program Instance Path_countable : Countable Pathlib.Path :=
  inj_countable' (λ p, (Pathlib.parent p, Pathlib.name p))
                 (λ q, Pathlib.mkPath q.1 q.2) _.
Next Obligation. by intros []. Qed.

(** ** Python values and exceptions *)

(** The exception classes the code can meet; each stands for the class and
    its subclasses ([OSError] covers [IsADirectoryError], ...).
    [OtherError] is any class outside the ones named. *)
Inductive PyExc :=
| InvalidFileException | BadZipFile | KeyError | OSError
| ValueError | TypeError | AttributeError | OtherError.

#[global] Instance PyExc_eq_dec : EqDecision PyExc.
Proof. solve_decision. Defined.

(** A call either returns or raises. *)
Inductive outcome (A : Type) :=
| Return (a : A)
| Raise (e : PyExc).
Arguments Return {A} a.
Arguments Raise {A} e.

(** An uploaded form part (Starlette [UploadFile]): the client's file name
    and the bytes [read()] returns. *)
Record UploadFile := mkUpload { filename : string; content : list Byte.byte }.

(** The values that flow through the handler: [None], text, or an
    upload. *)
Inductive PyVal :=
| PyNone
| PyStr (s : string)
| PyUpload (u : UploadFile).

(** Truth value of [v] in a condition ([not v], [v or d]): [None] and the
    empty text are false, an [UploadFile] object is true. *)
Definition truthy (v : PyVal) : bool :=
  match v with
  | PyNone => false
  | PyStr s => negb (String.eqb s "")
  | PyUpload _ => true
  end.

(** [getattr(v, "filename", "")]: only an upload has the attribute. *)
Definition getattr_filename (v : PyVal) : string :=
  match v with
  | PyUpload u => filename u
  | _ => ""
  end.

(** A dict with text keys, in insertion order: an association list whose
    keys are pairwise distinct. *)
Definition dict_keys {V} (d : list (string * V)) : list string := d.*1.

(** [d[k]]; the code indexes a record only with its own keys. *)
Fixpoint dict_item (d : list (string * PyVal)) (k : string) : PyVal :=
  match d with
  | [] => PyNone
  | (k', v) :: rest => if String.eqb k' k then v else dict_item rest k
  end.

(** ** The parsed JSON reply of the verification service *)

(** What [r.json()] can return: integers and floats are distinct, as
    Python's JSON reader makes them. *)
#[warnings="-register-all"] Inductive Json :=
| JNull
| JBool (b : bool)
| JInt (n : Z)
| JFloat (x : float)
| JStr (s : string)
| JList (items : list Json)
| JObject (fields : list (string * Json)).

(** [bool(v)]. *)
Definition json_truthy (v : Json) : bool :=
  match v with
  | JNull => false
  | JBool b => b
  | JInt n => negb (n =? 0)%Z
  | JFloat x => negb (PrimFloat.eqb x 0%float)
  | JStr s => negb (String.eqb s "")
  | JList items => match items with [] => false | _ => true end
  | JObject fields => match fields with [] => false | _ => true end
  end.

(** The binding of [k] in a parsed object; a later duplicate overwrote the
    earlier one. *)
Fixpoint fields_get (fields : list (string * Json)) (k : string) : option Json :=
  match fields with
  | [] => None
  | (k', v) :: rest =>
      match fields_get rest k with
      | Some v' => Some v'
      | None => if String.eqb k' k then Some v else None
      end
  end.

(** [data.get(k, default)]: only a dict has [get]; on any other value the
    attribute lookup raises ([None]). *)
Definition json_get (data : Json) (k : string) (default : Json) : option Json :=
  match data with
  | JObject fields => Some (match fields_get fields k with Some v => v | None => default end)
  | _ => None
  end.

(** [float(n)] for an [int]: the nearest double, ties to even;
    [OverflowError] ([None]) when that is infinite. *)
Definition float_of_int (n : Z) : option float :=
  let x := SF2Prim (binary_normalize 53 1024 n 0 false) in
  if PrimFloat.is_infinity x then None else Some x.

(** [float(v)]: defined on numbers, booleans and numeric text; [TypeError]
    or [ValueError] ([None]) otherwise.  [of_text] is Python's reader of
    numeric text. *)
Definition json_float (of_text : string → option float) (v : Json) : option float :=
  match v with
  | JNull => None
  | JBool b => Some (if b then 1%float else 0%float)
  | JInt n => float_of_int n
  | JFloat x => Some x
  | JStr s => of_text s
  | JList _ => None
  | JObject _ => None
  end.

(** ** The [openpyxl] worksheet *)

Module Openpyxl.

(** Cells are addressed by (row, column), both counted from 1. *)
Abbreviation coord := (positive * positive)%type.
Abbreviation cellmap := (gmap (positive * positive) PyVal).

(** A worksheet in memory: its title, the dict [_cells] of the cells that
    exist, and [_current_row], the row below which [append] writes. *)
Record Worksheet := mkSheet {
  title : string;
  _cells : cellmap;
  _current_row : N;
}.

(** The sheet of a fresh [Workbook()]. *)
Definition Workbook : Worksheet := mkSheet "Sheet" ∅ 0.

(** The rows that hold at least one cell. *)
Definition cell_rows (cells : cellmap) : list positive :=
  (λ kv, kv.1.1) <$> map_to_list cells.

(** [ws.max_row]:
<<
    max_row = 1
    if self._cells: max_row = max(c[0] for c in self._cells)
>>
    Rows are at least 1, so folding [max] from 1 is the same. *)
Definition max_row_of (cells : cellmap) : positive :=
  foldr Pos.max 1%positive (cell_rows cells).

Definition max_row (ws : Worksheet) : positive := max_row_of (_cells ws).

(** [ws._add_cell(cell)]: stores the cell and moves [_current_row] down
    to the cell's row if it was above it. *)
Definition _add_cell (ws : Worksheet) (r c : positive) (v : PyVal) : Worksheet :=
  mkSheet (title ws) (<[(r, c) := v]> (_cells ws))
          (N.max (Npos r) (_current_row ws)).

(** [ws._get_cell(row, column)], which is what [ws["A1"]] calls: a cell
    that does not exist yet is created (empty) through [_add_cell].
    Returns the sheet after the call and the cell's value. *)
Definition _get_cell (ws : Worksheet) (r c : positive) : Worksheet * PyVal :=
  match _cells ws !! (r, c) with
  | Some v => (ws, v)
  | None => (_add_cell ws r c PyNone, PyNone)
  end.

(** The cells of one appended row: [vals] go to columns [c], [c+1], ...
    of row [r]. *)
Fixpoint put_row (r c : positive) (vals : list PyVal) (cells : cellmap) : cellmap :=
  match vals with
  | [] => cells
  | v :: rest => put_row r (Pos.succ c) rest (<[(r, c) := v]> cells)
  end.

(** Whether a value can be a cell's content: [None] and text can, any
    other object makes [Cell] raise [ValueError]. *)
Definition convertible (v : PyVal) : bool :=
  match v with
  | PyUpload _ => false
  | _ => true
  end.

(** [ws.append(iterable)] for a list:
<<
    row_idx = self._current_row + 1
    for col_idx, content in enumerate(iterable, 1):
        self._cells[(row_idx, col_idx)] = Cell(self, row_idx, col_idx, content)
    self._current_row = row_idx
>> *)
Definition append (ws : Worksheet) (iterable : list PyVal) : outcome Worksheet :=
  let row_idx := N.succ_pos (_current_row ws) in
  if forallb convertible iterable
  then Return (mkSheet (title ws) (put_row row_idx 1 iterable (_cells ws))
                       (Npos row_idx))
  else Raise ValueError.

(** What is on disk under a path: a workbook that [load_workbook] can
    open (its active sheet's title and cells), or anything it cannot
    open, kept with its raw bytes and the exception the attempt
    raises. *)
Inductive Stored :=
| Xlsx (sheet_title : string) (cells : cellmap)
| Damaged (raw : list Byte.byte) (failure : PyExc).

(** [load_workbook(path)] followed by [wb.active]: the reader fills
    [_cells] and then sets
<<
    if self.ws._cells: self.ws._current_row = self.ws.max_row
>> *)
Definition load_workbook (f : Stored) : outcome Worksheet :=
  match f with
  | Xlsx t cells =>
      Return (mkSheet t cells
                (if bool_decide (cells = ∅) then 0%N else Npos (max_row_of cells)))
  | Damaged _ e => Raise e
  end.

(** What [wb.save] writes for the sheet.  The log path is taken to carry
    an extension [load_workbook] accepts ([.xlsx], as in the default), so
    that what is saved opens again. *)
Definition to_file (ws : Worksheet) : Stored := Xlsx (title ws) (_cells ws).

(** *** Reading a stored sheet row by row *)

(** The last column of row [r] that holds a cell; 0 if the row has none. *)
Definition row_width (cells : cellmap) (r : positive) : N :=
  foldr N.max 0%N
    ((λ kv, Npos kv.1.2) <$> filter (λ kv, kv.1.1 = r) (map_to_list cells)).

(** The values of row [r] from column 1 to its last cell; a missing cell
    reads as [None]. *)
Definition row_values (cells : cellmap) (r : positive) : list PyVal :=
  (λ i, default PyNone (cells !! (r, Pos.of_succ_nat i)))
    <$> seq 0 (N.to_nat (row_width cells r)).

(** The grid that holds exactly the given rows, the first in row [r]. *)
Fixpoint grid_from (r : positive) (rows : list (list PyVal)) : cellmap :=
  match rows with
  | [] => ∅
  | row :: rest => put_row r 1 row (grid_from (Pos.succ r) rest)
  end.

(** A well-formed log holds its header in row 1 and its data rows below. *)
Definition grid (rows : list (list PyVal)) : cellmap := grid_from 1 rows.

End Openpyxl.

(** ** [main.py] *)

Module Main.
Import Pathlib Openpyxl.

(** *** Configuration (environment variables read at start-up)

    [UPLOAD_DIR] does not appear: the model keeps the upload directory as
    its own store, keyed by file name (see [World]). *)
Record Config := mkConfig {
  EXCEL_PATH : Path;
  MAX_UPLOAD_MB : Z;
  RECAPTCHA_SECRET : string;
}.

(** The defaults of [os.getenv]. *)
Definition default_config : Config :=
  mkConfig (mkPath "storage" "applications.xlsx") 15 "".

Definition ALLOWED_EXTENSIONS : list string := [".pdf"; ".doc"; ".docx"].

(** *** What the code takes from outside

    The clock, the verification service, Python's reader of numeric text
    (used by [float] on a text score), and whether the operating system
    lets a rename, a write of an upload, or a save of the log succeed. *)
Record Env := mkEnv {
  utcnow_iso : string;
  siteverify : option Json;
  float_of_text : string → option float;
  rename_ok : bool;
  write_ok : bool;
  save_ok : bool;
}.

(** *** The state the code changes

    [disk] holds the log file and its backup by path; [uploads] is the
    content of the upload directory by file name.  The two are kept apart:
    no upload is stored under the log's path. *)
Record World := mkWorld {
  disk : gmap Path Stored;
  uploads : gmap string (list Byte.byte);
}.

(** *** Computations that change the world and may raise *)

Definition Py (A : Type) : Type := World → outcome A * World.

#[global] Instance Py_ret : MRet Py := λ A a w, (Return a, w).

#[global] Instance Py_bind : MBind Py := λ A B k m w,
  match m w with
  | (Return a, w') => k a w'
  | (Raise e, w') => (Raise e, w')
  end.

Definition raise {A} (e : PyExc) : Py A := λ w, (Raise e, w).

(** The outcome of a call that does not touch the world. *)
Definition lift {A} (o : outcome A) : Py A := λ w, (o, w).

(** [try: body except <classes>: handler]. *)
Definition try_except {A} (body : Py A) (classes : list PyExc) (handler : Py A) : Py A :=
  λ w, match body w with
       | (Raise e, w') =>
           if bool_decide (e ∈ classes) then handler w' else (Raise e, w')
       | r => r
       end.

(** [try: body except Exception: pass]. *)
Definition try_pass (body : Py unit) : Py unit :=
  λ w, match body w with
       | (Raise _, w') => (Return (), w')
       | r => r
       end.

(** *** File operations *)

(** [path.exists()]. *)
Definition path_exists (p : Path) : Py bool :=
  λ w, (Return (bool_decide (is_Some (disk w !! p))), w).

(** [load_workbook(path)] then [wb.active]. *)
Definition load (p : Path) : Py Worksheet :=
  λ w, match disk w !! p with
       | Some f => (load_workbook f, w)
       | None => (Raise OSError, w)
       end.

(** [src.rename(dst)]: moves the file, replacing what was at [dst]. *)
Definition rename (env : Env) (src dst : Path) : Py unit :=
  λ w, match disk w !! src with
       | Some f =>
           if rename_ok env
           then (Return (), mkWorld (<[dst := f]> (delete src (disk w))) (uploads w))
           else (Raise OSError, w)
       | None => (Raise OSError, w)
       end.

(** [wb.save(path)]. *)
Definition save (env : Env) (ws : Worksheet) (p : Path) : Py unit :=
  λ w, if save_ok env
       then (Return (), mkWorld (<[p := to_file ws]> (disk w)) (uploads w))
       else (Raise OSError, w).

(** [(UPLOAD_DIR / name).write_bytes(data)].  The names [""], ["."] and
    [".."] denote the directory itself or its parent, which cannot be
    opened for writing. *)
Definition write_bytes (env : Env) (name : string) (data : list Byte.byte) : Py unit :=
  λ w, if bool_decide (name ∈ [""; "."; ".."]) then (Raise OSError, w)
       else if write_ok env
       then (Return (), mkWorld (disk w) (<[name := data]> (uploads w)))
       else (Raise OSError, w).

(** *** Utilities *)

(** [_new_wb_with_header(keys)]: a fresh workbook whose sheet is titled
    ["Applications"] and holds the keys as its first row. *)
Definition _new_wb_with_header (keys : list string) : Py Worksheet :=
  let ws := Workbook in
  let ws := mkSheet "Applications" (_cells ws) (_current_row ws) in
  lift (append ws (PyStr <$> keys)).

(** A submission record (text values under distinct keys) as the dict
    handed to [append_to_excel]. *)
Definition as_row (r : list (string * string)) : list (string * PyVal) :=
  (λ kv, (kv.1, PyStr kv.2)) <$> r.

(** [append_to_excel(row)]. *)
Definition append_to_excel (cfg : Config) (env : Env) (row : list (string * PyVal)) : Py unit :=
  let keys := dict_keys row in
  present ← path_exists (EXCEL_PATH cfg);
  opened ←
    (if (present : bool) then
       try_except
         (ws ← load (EXCEL_PATH cfg);
          if (max_row ws =? 1)%positive then
            let '(ws, a1) := _get_cell ws 1 1 in
            match a1 with
            | PyNone => ws ← lift (append ws (PyStr <$> keys)); mret (Some ws)
            | _ => mret (Some ws)
            end
          else mret (Some ws))
         [InvalidFileException; BadZipFile; KeyError; OSError]
         (match with_suffix (EXCEL_PATH cfg) ".bad.xlsx" with
          | None => raise ValueError
          | Some backup =>
              try_pass (rename env (EXCEL_PATH cfg) backup);;
              ws ← _new_wb_with_header keys; mret (Some ws)
          end)
     else ws ← _new_wb_with_header keys; mret (Some ws));
  ws ← match opened with
       | Some ws => mret ws
       | None => _new_wb_with_header keys
       end;
  ws ← lift (append ws (dict_item row <$> keys));
  save env ws (EXCEL_PATH cfg).

(** The score a reply must reach: the double that Python reads for the
    literal [0.4]. *)
Definition min_score : float := 0x1.999999999999ap-2.

(** [verify_recaptcha(token)].  Every exception inside the [try] turns
    into [False]; [None] stands for a raised exception, both in
    [siteverify] (the request or [r.json()] failed) and in the attribute
    and conversion steps on the reply. *)
Definition verify_recaptcha (cfg : Config) (env : Env) (token : PyVal) : bool :=
  if String.eqb (RECAPTCHA_SECRET cfg) "" || negb (truthy token) then true
  else
    default false
      (data ← siteverify env;
       success ← json_get data "success" JNull;
       if negb (json_truthy success) then Some false
       else
         score ← json_get data "score" (JFloat 0);
         x ← json_float (float_of_text env) score;
         Some (PrimFloat.leb min_score x)).

(** *** The form and the response *)

(** [form.get(k, default)] on the parsed multi-dict: the last value sent
    under [k]. *)
Fixpoint form_get (form : list (string * PyVal)) (k : string) (default : PyVal) : PyVal :=
  match form with
  | [] => default
  | (k', v) :: rest => form_get rest k (if String.eqb k' k then v else default)
  end.

(** [form.getlist(k)]: every value sent under [k], in order. *)
Definition form_getlist (form : list (string * PyVal)) (k : string) : list PyVal :=
  (filter (λ kv, kv.1 = k) form).*2.

Record JSONResponse := mkResponse { message : string; status_code : Z }.

(** [(v or "").strip()]. *)
Definition or_empty_strip (v : PyVal) : Py string :=
  match (if truthy v then v else PyStr "") with
  | PyStr s => mret (PyStr.strip s)
  | _ => raise AttributeError
  end.

(** [sep.join(vs)]: every item must be text. *)
Definition join_values (sep : string) (vs : list PyVal) : Py string :=
  match mapM (λ v, match v with PyStr s => Some s | _ => None end) vs with
  | Some ss => mret (PyStr.join sep ss)
  | None => raise TypeError
  end.

Definition required : list string :=
  ["name"; "email"; "phone"; "location"; "start_date"; "visa"].

(** The list [missing] as the handler builds it. *)
Definition missing_fields (form : list (string * PyVal)) : list string :=
  let missing := filter (λ k, truthy (form_get form k PyNone) = false) required in
  let resume := form_get form "resume" PyNone in
  if negb (truthy resume) || String.eqb (getattr_filename resume) ""
  then missing ++ ["resume"] else missing.

(** Second half of [apply] (from "Sicher speichern" on): store the upload,
    build the record, append it to the log, answer 200. *)
Definition apply_store (cfg : Config) (env : Env) (form : list (string * PyVal))
    (resume : UploadFile) (content : list Byte.byte) : Py JSONResponse :=
  let safe_name := Posixpath.basename (filename resume) in
  write_bytes env safe_name content;;
  let exp := form_getlist form "expertise[]" in
  links ← or_empty_strip (form_get form "links" PyNone);
  why ← or_empty_strip (form_get form "info" PyNone);
  expertise ← join_values ", " exp;
  append_to_excel cfg env
    [ ("timestamp", PyStr (utcnow_iso env +:+ "Z"));
      ("name", form_get form "name" PyNone);
      ("email", form_get form "email" PyNone);
      ("phone", form_get form "phone" PyNone);
      ("location", form_get form "location" PyNone);
      ("start_date", form_get form "start_date" PyNone);
      ("visa", form_get form "visa" PyNone);
      ("expertise", PyStr expertise);
      ("links", PyStr links);
      ("why_kedorion", PyStr why);
      ("resume_filename", PyStr safe_name) ];;
  mret (mkResponse "Application received. Thank you!" 200).

(** [apply(request)], first half: the checks, each answering 400 at once
    when it fails. *)
Definition apply (cfg : Config) (env : Env) (form : list (string * PyVal)) : Py JSONResponse :=
  let missing := missing_fields form in
  if negb (bool_decide (missing = [])) then
    mret (mkResponse ("Missing fields: " +:+ PyStr.join ", " missing) 400)
  else
    let resume := form_get form "resume" PyNone in
    let token := form_get form "recaptcha_token" (PyStr "") in
    if negb (verify_recaptcha cfg env token) then
      mret (mkResponse "reCAPTCHA verification failed." 400)
    else
      match resume with
      | PyUpload resume =>
          let content := content resume in
          if (MAX_UPLOAD_MB cfg * 1024 * 1024 <? Z.of_nat (length content))%Z then
            mret (mkResponse ("File too large (>" +:+ PyStr.of_int (MAX_UPLOAD_MB cfg) +:+ "MB).") 400)
          else
            let ext := PyStr.lower (suffix (of_text (filename resume))) in
            if negb (PyStr.mem ext ALLOWED_EXTENSIONS) then
              mret (mkResponse "Unsupported file type. Please upload PDF/DOC/DOCX." 400)
            else apply_store cfg env form resume content
      | _ => raise AttributeError
      end.

End Main.

(** ** Sample data used to exercise the model *)

Module Sample.
Import Pathlib Openpyxl Main.

(** An environment in which the operating system refuses nothing and the
    verification service is unreachable (and, with no secret configured,
    never asked). *)
Definition env : Env :=
  mkEnv "2024-01-01T00:00:00" None (λ _, None) true true true.

(** Nothing stored yet. *)
Definition empty_world : World := mkWorld ∅ ∅.

(** The text fields of a complete application. *)
Definition fields : list (string * PyVal) :=
  [("name", PyStr "Ana"); ("email", PyStr "a@x.com"); ("phone", PyStr "123");
   ("location", PyStr "Berlin"); ("start_date", PyStr "2024-01-01");
   ("visa", PyStr "yes")].

(** A complete application with a one-byte résumé named [fname]. *)
Definition form (fname : string) : list (string * PyVal) :=
  fields ++ [("resume", PyUpload (mkUpload fname [Byte.x25]))].

(** The record the handler builds from [form "cv.pdf"]. *)
Definition record : list (string * string) :=
  [("timestamp", "2024-01-01T00:00:00Z"); ("name", "Ana"); ("email", "a@x.com");
   ("phone", "123"); ("location", "Berlin"); ("start_date", "2024-01-01");
   ("visa", "yes"); ("expertise", ""); ("links", ""); ("why_kedorion", "");
   ("resume_filename", "cv.pdf")].


(** A log that holds a header and one earlier row. *)
Definition earlier_row : list PyVal :=
  [PyStr "2023-12-31T08:00:00Z"; PyStr "Bob"; PyStr "b@x.com"; PyStr "456";
   PyStr "Paris"; PyStr "2024-02-01"; PyStr "no"; PyStr "ML"; PyStr "";
   PyStr ""; PyStr "bob.pdf"].

Definition log_world : World :=
  mkWorld {[ EXCEL_PATH default_config :=
               Xlsx "Applications" (grid [PyStr <$> record.*1; earlier_row]) ]} ∅.

(** A log file that is a workbook with an empty sheet, as a spreadsheet
    program or [Workbook().save(path)] leaves it. *)
Definition blank_world : World :=
  mkWorld {[ EXCEL_PATH default_config := Xlsx "Sheet" ∅ ]} ∅.

End Sample.

(** ** Successive calls, and what a call leaves alone *)

Module Runs.
Import Pathlib Openpyxl Main.


(** A computation stays within [R] when the world it leaves, whether it
    returns or raises, is always [R]-related to the world it started in. *)
Definition stays_within {A} (R : World → World → Prop) (m : Py A) : Prop :=
  ∀ w, R w (m w).2.

(** The upload directory is as it was, and so is every path outside
    [paths]. *)
Definition log_frame (paths : list Path) (w w' : World) : Prop :=
  uploads w' = uploads w ∧ ∀ p, p ∉ paths → disk w' !! p = disk w !! p.

(** As [log_frame], except that the upload called [fname] may have
    changed. *)
Definition store_frame (fname : string) (paths : list Path) (w w' : World) : Prop :=
  (∀ k, k ≠ fname → uploads w' !! k = uploads w !! k)
  ∧ ∀ p, p ∉ paths → disk w' !! p = disk w !! p.

#[global] Instance log_frame_preorder (paths : list Path) : PreOrder (log_frame paths).
Proof.
  split.
  - by intros w.
  - intros w1 w2 w3 [Hu1 Hd1] [Hu2 Hd2]. split; [congruence|].
    intros p Hp. by rewrite Hd2, Hd1.
Qed.

#[global] Instance store_frame_preorder (fname : string) (paths : list Path) :
  PreOrder (store_frame fname paths).
Proof.
  split.
  - by intros w.
  - intros w1 w2 w3 [Hu1 Hd1] [Hu2 Hd2]. split.
    + intros k Hk. by rewrite Hu2, Hu1.
    + intros p Hp. by rewrite Hd2, Hd1.
Qed.

(** The paths [append_to_excel] may write: the log and its backup. *)
Definition log_paths (cfg : Config) : list Path :=
  EXCEL_PATH cfg :: option_list (with_suffix (EXCEL_PATH cfg) ".bad.xlsx").



End Runs.

(** * Properties *)

Import Pathlib Openpyxl Main.

(** A closed decidable fact, settled by evaluation. *)
Ltac by_evaluation := refine (bool_decide_unpack _ _); vm_compute; exact I.

(** ** Required fields (the first check of [apply]) *)

(** A value is false in a condition exactly when it is absent ([None]) or
    the empty text. *)
Lemma truthy_false_iff (v : PyVal) :
  truthy v = false ↔ v = PyNone ∨ v = PyStr "".
Proof.
  destruct v as [|s|u]; simpl.
  - split; [by left|done].
  - destruct (String.eqb_spec s ""); naive_solver.
  - split; [done|by intros [|]].
Qed.

(** The résumé counts as missing when no file part was sent under
    [resume] (nothing, or plain text) or when the part has no file name. *)
Lemma resume_missing_iff (v : PyVal) :
  negb (truthy v) || String.eqb (getattr_filename v) "" = true
  ↔ (∀ u, v = PyUpload u → filename u = "").
Proof.
  destruct v as [|s|u]; simpl.
  - split; [by intros _ u|done].
  - rewrite orb_true_r. split; [by intros _ u|done].
  - destruct (String.eqb_spec (filename u) ""); naive_solver.
Qed.

(** Which names the handler collects into [missing]. *)
Lemma elem_of_missing_fields form k :
  k ∈ missing_fields form ↔
    (k ∈ required ∧
       (form_get form k PyNone = PyNone ∨ form_get form k PyNone = PyStr ""))
    ∨ (k = "resume" ∧
       ∀ u, form_get form "resume" PyNone = PyUpload u → filename u = "").
Proof.
  unfold missing_fields.
  destruct (negb _ || _) eqn:E.
  - pose proof (proj1 (resume_missing_iff _) E) as Hres.
    rewrite elem_of_app, list_elem_of_filter, truthy_false_iff, list_elem_of_singleton.
    naive_solver.
  - rewrite list_elem_of_filter, truthy_false_iff.
    split; [naive_solver|].
    intros [?|[-> H]]; [naive_solver|].
    pose proof (proj2 (resume_missing_iff _) H). congruence.
Qed.

Lemma missing_fields_NoDup form : NoDup (missing_fields form).
Proof.
  unfold missing_fields.
  assert (NoDup required) as Hreq by (by_evaluation).
  assert (NoDup (filter (λ k, truthy (form_get form k PyNone) = false) required)) as Hf
    by (by apply NoDup_filter).
  destruct (negb _ || _); [|done].
  apply NoDup_app. split_and!; [done| |apply NoDup_singleton].
  intros k [_ Hk]%list_elem_of_filter ->%list_elem_of_singleton.
  revert Hk. by_evaluation.
Qed.

(** C4.  A submission in which a required field is absent or empty, or in
    which the résumé file is absent or has an empty file name, is answered
    with status 400 and the message ["Missing fields: "] followed by the
    comma-joined list [missing]; that list holds exactly the missing names
    (["resume"] for the file), each once; and the world is left as it was:
    no upload is written and no row is appended. *)
Theorem C4_missing_fields_rejected cfg env form w :
  ((∃ k, k ∈ required ∧
         (form_get form k PyNone = PyNone ∨ form_get form k PyNone = PyStr ""))
   ∨ (∀ u, form_get form "resume" PyNone = PyUpload u → filename u = "")) →
  apply cfg env form w
    = (Return (mkResponse ("Missing fields: " +:+ PyStr.join ", " (missing_fields form)) 400), w)
  ∧ NoDup (missing_fields form)
  ∧ ∀ k, k ∈ missing_fields form ↔
      (k ∈ required ∧
         (form_get form k PyNone = PyNone ∨ form_get form k PyNone = PyStr ""))
      ∨ (k = "resume" ∧
         ∀ u, form_get form "resume" PyNone = PyUpload u → filename u = "").
Proof.
  intros H. split_and!.
  - assert (missing_fields form ≠ []) as Hne.
    { intros Hnil.
      assert (∃ k, k ∈ missing_fields form) as [k Hk].
      { destruct H as [(k & ? & ?)|?].
        - exists k. apply elem_of_missing_fields. by left.
        - exists "resume". apply elem_of_missing_fields. by right. }
      rewrite Hnil in Hk. by apply not_elem_of_nil in Hk. }
    unfold apply. rewrite bool_decide_false by done. done.
  - apply missing_fields_NoDup.
  - apply elem_of_missing_fields.
Qed.

(** A submission without an e-mail address and without a résumé. *)
Lemma C4_witness :
  apply default_config Sample.env (Sample.fields ++ [("email", PyStr "")])
        Sample.empty_world
  = (Return (mkResponse "Missing fields: email, resume" 400), Sample.empty_world).
Proof.
  refine (proj1 (C4_missing_fields_rejected _ _ _ _ _)).
  left. exists "email". split; [|right; reflexivity].
  by_evaluation.
Defined.

(** ** Sequencing *)

(** A sequence returns only if its first part returned. *)
Lemma bind_Return {A B} (m : Py A) (k : A → Py B) w b w' :
  (m ≫= k) w = (Return b, w') →
  ∃ a w1, m w = (Return a, w1) ∧ k a w1 = (Return b, w').
Proof.
  unfold mbind, Py_bind. destruct (m w) as [[a|e] w1]; [eauto|done].
Qed.

(** If the first part returns, the sequence continues from its world. *)
Lemma bind_step {A B} (m : Py A) (k : A → Py B) w a w1 :
  m w = (Return a, w1) → (m ≫= k) w = k a w1.
Proof. unfold mbind, Py_bind. by intros ->. Qed.

(** If the first part raises, so does the sequence. *)
Lemma bind_raise {A B} (m : Py A) (k : A → Py B) w e w1 :
  m w = (Raise e, w1) → (m ≫= k) w = (Raise e, w1).
Proof. unfold mbind, Py_bind. by intros ->. Qed.

(** The second half of the handler answers 200 whenever it answers. *)
Lemma apply_store_response cfg env form u c w r w' :
  apply_store cfg env form u c w = (Return r, w') →
  r = mkResponse "Application received. Thank you!" 200.
Proof.
  unfold apply_store. intros H.
  repeat (apply bind_Return in H as (? & ? & _ & H)).
  by inversion H.
Qed.

(** ** Size and extension checks *)

Arguments PyStr.mem : simpl never.

(** What the handler does once the checks before the extension check have
    passed. *)
Lemma apply_at_extension_check cfg env form w u :
  form_get form "resume" PyNone = PyUpload u →
  missing_fields form = [] →
  verify_recaptcha cfg env (form_get form "recaptcha_token" (PyStr "")) = true →
  (Z.of_nat (length (content u)) ≤ MAX_UPLOAD_MB cfg * 1024 * 1024)%Z →
  apply cfg env form w =
    if PyStr.mem (PyStr.lower (suffix (of_text (filename u)))) ALLOWED_EXTENSIONS
    then apply_store cfg env form u (content u) w
    else (Return (mkResponse "Unsupported file type. Please upload PDF/DOC/DOCX." 400), w).
Proof.
  intros Hres Hmiss Hver Hsize. unfold apply. cbv zeta.
  rewrite Hres, Hmiss, Hver. simpl.
  assert ((MAX_UPLOAD_MB cfg * 1024 * 1024 <? Z.of_nat (length (content u)))%Z = false) as ->
    by (apply Z.ltb_ge; lia).
  by destruct (PyStr.mem _ _).
Qed.

(** C6.  A submission whose upload is longer than [MAX_UPLOAD_MB] times
    2^20 bytes is answered with status 400 and nothing is stored (neither
    the upload nor a log row); when it has passed the required-field and
    verification checks that come first, the message is the size message,
    which spells out the configured limit.  The default limit is 15.  An
    upload of at most that many bytes passes this check: it is never
    answered with the size message, and after the earlier checks the
    handler goes on to the extension check. *)
Theorem C6_size_check cfg env form w u :
  form_get form "resume" PyNone = PyUpload u →
  let too_large := "File too large (>" +:+ PyStr.of_int (MAX_UPLOAD_MB cfg) +:+ "MB)." in
  ((MAX_UPLOAD_MB cfg * 2 ^ 20 < Z.of_nat (length (content u)))%Z →
     (∃ msg, apply cfg env form w = (Return (mkResponse msg 400), w))
     ∧ (missing_fields form = [] →
        verify_recaptcha cfg env (form_get form "recaptcha_token" (PyStr "")) = true →
        apply cfg env form w = (Return (mkResponse too_large 400), w)))
  ∧ ((Z.of_nat (length (content u)) ≤ MAX_UPLOAD_MB cfg * 2 ^ 20)%Z →
     (apply cfg env form w).1 ≠ Return (mkResponse too_large 400)
     ∧ (missing_fields form = [] →
        verify_recaptcha cfg env (form_get form "recaptcha_token" (PyStr "")) = true →
        apply cfg env form w =
          if PyStr.mem (PyStr.lower (suffix (of_text (filename u)))) ALLOWED_EXTENSIONS
          then apply_store cfg env form u (content u) w
          else (Return (mkResponse "Unsupported file type. Please upload PDF/DOC/DOCX." 400), w)))
  ∧ MAX_UPLOAD_MB default_config = 15%Z.
Proof.
  intros Hres too_large.
  split_and!; [intros Hbig|intros Hsmall|done].
  - unfold apply. cbv zeta. rewrite Hres.
    replace (MAX_UPLOAD_MB cfg * 1024 * 1024)%Z with (MAX_UPLOAD_MB cfg * 2 ^ 20)%Z by lia.
    apply Z.ltb_lt in Hbig as Hb. split.
    + destruct (bool_decide (missing_fields form = [])); simpl; [|eauto].
      destruct (verify_recaptcha _ _ _); simpl; [|eauto].
      rewrite Hb. eauto.
    + intros -> ->. simpl. by rewrite Hb.
  - split; [|intros; apply apply_at_extension_check; (done || lia)].
    unfold apply. cbv zeta. rewrite Hres.
    replace (MAX_UPLOAD_MB cfg * 1024 * 1024)%Z with (MAX_UPLOAD_MB cfg * 2 ^ 20)%Z by lia.
    assert ((MAX_UPLOAD_MB cfg * 2 ^ 20 <? Z.of_nat (length (content u)))%Z = false) as Hb
      by (apply Z.ltb_ge; lia).
    destruct (bool_decide (missing_fields form = [])); simpl; [|done].
    destruct (verify_recaptcha _ _ _); simpl; [|done].
    rewrite Hb.
    destruct (PyStr.mem _ _); simpl; [|done].
    destruct (apply_store _ _ _ _ _ _) as [[r|e] w'] eqn:E; [|done].
    apply apply_store_response in E as ->. simpl. done.
Qed.

(** With the limit set to 0 MB a one-byte résumé is too large. *)
Lemma C6_witness :
  apply (mkConfig (mkPath "storage" "applications.xlsx") 0 "") Sample.env
        (Sample.form "cv.pdf") Sample.empty_world
  = (Return (mkResponse "File too large (>0MB)." 400), Sample.empty_world).
Proof.
  refine (proj2 (proj1 (C6_size_check _ _ _ _ _ _) _) _ _).
  - reflexivity.
  - simpl. lia.
  - reflexivity.
  - reflexivity.
Defined.

(** C7.  A submission whose upload's file name has a lowercased final
    suffix outside [.pdf], [.doc], [.docx] is answered with status 400 and
    nothing is stored; when it has passed the checks that come first
    (required fields, verification, size) the message is the
    unsupported-type message.  The suffix is lowercased before it is
    compared, so a name whose suffix lowercases into the list (such as
    [cv.PDF]) passes: it is never answered with the unsupported-type
    message, and after the earlier checks the handler goes on to store the
    submission. *)
Theorem C7_extension_check cfg env form w u :
  form_get form "resume" PyNone = PyUpload u →
  let ext := PyStr.lower (suffix (of_text (filename u))) in
  let unsupported := "Unsupported file type. Please upload PDF/DOC/DOCX." in
  (ext ∉ [".pdf"; ".doc"; ".docx"] →
     (∃ msg, apply cfg env form w = (Return (mkResponse msg 400), w))
     ∧ (missing_fields form = [] →
        verify_recaptcha cfg env (form_get form "recaptcha_token" (PyStr "")) = true →
        (Z.of_nat (length (content u)) ≤ MAX_UPLOAD_MB cfg * 2 ^ 20)%Z →
        apply cfg env form w = (Return (mkResponse unsupported 400), w)))
  ∧ (ext ∈ [".pdf"; ".doc"; ".docx"] →
     (apply cfg env form w).1 ≠ Return (mkResponse unsupported 400)
     ∧ (missing_fields form = [] →
        verify_recaptcha cfg env (form_get form "recaptcha_token" (PyStr "")) = true →
        (Z.of_nat (length (content u)) ≤ MAX_UPLOAD_MB cfg * 2 ^ 20)%Z →
        apply cfg env form w = apply_store cfg env form u (content u) w))
  ∧ PyStr.lower (suffix (of_text "cv.PDF")) = ".pdf".
Proof.
  intros Hres ext unsupported.
  assert (PyStr.mem ext ALLOWED_EXTENSIONS = true ↔ ext ∈ [".pdf"; ".doc"; ".docx"]) as Hmem.
  { unfold PyStr.mem, ALLOWED_EXTENSIONS. rewrite existsb_exists.
    setoid_rewrite <- list_elem_of_In. setoid_rewrite String.eqb_eq. naive_solver. }
  split_and!; [intros Hbad|intros Hgood|done].
  - assert (PyStr.mem ext ALLOWED_EXTENSIONS = false) as Hb
      by (destruct (PyStr.mem _ _); [by destruct Hbad; apply Hmem|done]).
    split.
    + unfold apply. cbv zeta. rewrite Hres. fold ext.
      destruct (bool_decide (missing_fields form = [])); simpl; [|eauto].
      destruct (verify_recaptcha _ _ _); simpl; [|eauto].
      destruct (_ <? _)%Z; [eauto|].
      rewrite Hb. simpl. eauto.
    + intros Hmiss Hver Hsmall.
      rewrite (apply_at_extension_check _ _ _ _ u) by (done || lia).
      fold ext. by rewrite Hb.
  - apply Hmem in Hgood. split.
    + unfold apply. cbv zeta. rewrite Hres. fold ext.
      destruct (bool_decide (missing_fields form = [])); simpl; [|done].
      destruct (verify_recaptcha _ _ _); simpl; [|done].
      destruct (_ <? _)%Z; [done|].
      rewrite Hgood. simpl.
      destruct (apply_store _ _ _ _ _ _) as [[r|e] w'] eqn:E; [|done].
      apply apply_store_response in E as ->. simpl. done.
    + intros Hmiss Hver Hsmall.
      rewrite (apply_at_extension_check _ _ _ _ u) by (done || lia).
      fold ext. by rewrite Hgood.
Qed.

(** The scenario of the specification: the résumé is an [.exe]. *)
Lemma C7_witness :
  apply default_config Sample.env (Sample.form "cv.exe") Sample.empty_world
  = (Return (mkResponse "Unsupported file type. Please upload PDF/DOC/DOCX." 400),
     Sample.empty_world).
Proof.
  refine (proj2 (proj1 (C7_extension_check _ _ _ _ _ _) _) _ _ _).
  - reflexivity.
  - by_evaluation.
  - reflexivity.
  - reflexivity.
  - simpl. lia.
Defined.

(** ** No trimming of required fields *)

(** C9 as stated fails: a name of three spaces is present and is nothing
    but whitespace, yet it is not listed as missing and the submission is
    accepted. *)
Lemma C9_counterexample :
  let form := (Sample.form "cv.pdf" ++ [("name", PyStr "   ")])%list in
  "name" ∈ required
  ∧ form_get form "name" PyNone = PyStr "   "
  ∧ PyStr.strip "   " = ""
  ∧ ("name" ∉ missing_fields form)
  ∧ ((apply default_config Sample.env form Sample.empty_world).1
     = Return (mkResponse "Application received. Thank you!" 200)).
Proof.
  cbv zeta. split_and!.
  - by_evaluation.
  - reflexivity.
  - reflexivity.
  - by_evaluation.
  - vm_compute. reflexivity.
Qed.

(** C9, amended.  A required field counts as missing only when it is
    absent or the empty text; its value is not trimmed.  A required field
    that holds any non-empty text, a run of whitespace included, is not
    listed as missing; and when every required field holds something other
    than the empty text and the résumé is a file with a name, nothing is
    listed as missing and the submission is not answered with the
    missing-fields error. *)
Theorem C9_no_trimming cfg env form w :
  (∀ k s, k ∈ required → form_get form k PyNone = PyStr s → s ≠ "" →
          k ∉ missing_fields form)
  ∧ ((∀ k, k ∈ required →
           form_get form k PyNone ≠ PyNone ∧ form_get form k PyNone ≠ PyStr "") →
     (∃ u, form_get form "resume" PyNone = PyUpload u ∧ filename u ≠ "") →
     missing_fields form = []
     ∧ ∀ names, (apply cfg env form w).1
                ≠ Return (mkResponse ("Missing fields: " +:+ names) 400)).
Proof.
  split.
  { intros k s Hk Hget Hs [[_ [H|H]]|[-> _]]%elem_of_missing_fields.
    - congruence.
    - congruence.
    - revert Hk. by_evaluation. }
  intros Hreq (u & Hres & Hname).
  assert (missing_fields form = []) as Hnil.
  { destruct (missing_fields form) as [|k ?] eqn:E; [done|].
    assert (k ∈ missing_fields form) as Hk by (rewrite E; left).
    apply elem_of_missing_fields in Hk as [[Hk [?|?]]|[_ Hk]].
    - by destruct (Hreq k Hk).
    - by destruct (Hreq k Hk).
    - by destruct Hname; apply Hk. }
  split; [done|]. intros names.
  unfold apply. cbv zeta. rewrite Hnil, Hres. simpl.
  destruct (verify_recaptcha _ _ _); simpl; [|done].
  destruct (_ <? _)%Z; [done|].
  destruct (negb _); [done|].
  destruct (apply_store _ _ _ _ _ _) as [[r|e] w'] eqn:E; [|done].
  apply apply_store_response in E as ->. simpl. done.
Qed.

(** The submission of the counterexample, with its whitespace name. *)
Lemma C9_witness :
  ("name" ∉ missing_fields (Sample.form "cv.pdf" ++ [("name", PyStr "   ")]))
  ∧ missing_fields (Sample.form "cv.pdf" ++ [("name", PyStr "   ")]) = [].
Proof.
  destruct (C9_no_trimming default_config Sample.env
              (Sample.form "cv.pdf" ++ [("name", PyStr "   ")]) Sample.empty_world)
    as [Hfield Hform].
  split.
  - apply (Hfield "name" "   "); [by_evaluation|reflexivity|done].
  - refine (proj1 (Hform _ _)).
    + intros k Hk. unfold required in Hk.
      repeat (apply elem_of_cons in Hk as [->|Hk]; [by split|]).
      by apply not_elem_of_nil in Hk.
    + eexists. split; [reflexivity|done].
Defined.

(** ** Facts about text *)

Lemma string_app_nil (b : string) : "" +:+ b = b.
Proof. reflexivity. Qed.

Lemma string_app_cons (x : ascii) (a b : string) :
  String x a +:+ b = String x (a +:+ b).
Proof. reflexivity. Qed.

Lemma string_length_app (a b : string) :
  String.length (a +:+ b) = String.length a + String.length b.
Proof.
  induction a as [|x a IH]; [done|].
  rewrite string_app_cons. simpl. by rewrite IH.
Qed.

Lemma string_app_assoc (a b c : string) : (a +:+ b) +:+ c = a +:+ (b +:+ c).
Proof.
  induction a as [|x a IH]; [done|].
  rewrite !string_app_cons. by f_equal.
Qed.

Lemma contains_app (a b : string) (c : ascii) :
  PyStr.contains (a +:+ b) c = PyStr.contains a c || PyStr.contains b c.
Proof.
  induction a as [|x a IH]; [done|].
  rewrite string_app_cons. simpl. by rewrite IH, orb_assoc.
Qed.

(** [rfind] answers a valid index or -1. *)
Lemma rfind_lower_bound (s : string) (c : ascii) : (-1 ≤ PyStr.rfind s c)%Z.
Proof.
  induction s as [|x s IH]; simpl; [done|].
  destruct (0 <=? _)%Z eqn:E; [lia|]. destruct (Ascii.eqb x c); lia.
Qed.

Lemma rfind_absent (s : string) (c : ascii) :
  PyStr.contains s c = false → PyStr.rfind s c = (-1)%Z.
Proof.
  induction s as [|x s IH]; simpl; [done|].
  intros [Hx Hs]%orb_false_iff. rewrite (IH Hs), Hx. done.
Qed.

(** The last occurrence: nothing after it. *)
Lemma rfind_last (a b : string) (c : ascii) :
  PyStr.contains b c = false →
  PyStr.rfind (a +:+ String c b) c = PyStr.len a.
Proof.
  intros Hb. unfold PyStr.len. induction a as [|x a IH].
  - rewrite string_app_nil. simpl.
    by rewrite (rfind_absent _ _ Hb), Ascii.eqb_refl.
  - rewrite string_app_cons. simpl. rewrite IH.
    destruct (0 <=? _)%Z eqn:E; lia.
Qed.

Lemma slice_from_app (a b : string) :
  PyStr.slice_from (String.length a) (a +:+ b) = b.
Proof. induction a as [|x a IH]; [by destruct b|done]. Qed.

(** A text without a slash is a single piece. *)
Lemma split_no_sep (s : string) (c : ascii) :
  PyStr.contains s c = false → PyStr.split c s = [s].
Proof.
  induction s as [|x s IH]; simpl; [done|].
  intros [Hx Hs]%orb_false_iff. by rewrite Hx, (IH Hs).
Qed.

(** The name of a path that is a single plain component. *)
Lemma name_of_plain (s : string) :
  PyStr.contains s "/" = false → s ≠ "" → s ≠ "." → name_of s = s.
Proof.
  intros Hs H1 H2. unfold name_of. rewrite (split_no_sep _ _ Hs).
  rewrite filter_cons_True by done. done.
Qed.

(** The suffix of a name that ends in a dot and a dot-free extension. *)
Lemma suffix_of_name_last (a b : string) :
  a ≠ "" → b ≠ "" → PyStr.contains b "." = false →
  suffix_of_name (a +:+ String "." b) = String "." b.
Proof.
  intros Ha Hb Hdot. unfold suffix_of_name.
  rewrite (rfind_last _ _ _ Hdot). unfold PyStr.len.
  rewrite string_length_app. simpl.
  assert (0 < String.length a) by (destruct a; [done|simpl; lia]).
  assert (0 < String.length b) by (destruct b; [done|simpl; lia]).
  assert ((0 <? Z.of_nat (String.length a))%Z = true) as -> by (apply Z.ltb_lt; lia).
  assert ((Z.of_nat (String.length a) <?
           Z.of_nat (String.length a + S (String.length b)) - 1)%Z = true) as ->
    by (apply Z.ltb_lt; lia).
  simpl. rewrite Nat2Z.id. apply slice_from_app.
Qed.

(** ** Only the last suffix counts *)

(** Gluing slash-free suffixes gives a slash-free text. *)
Lemma contains_slash_suffixes (sufs : list string) :
  Forall (λ s, PyStr.contains s "/" = false) sufs →
  PyStr.contains (foldr (λ s acc, "." +:+ s +:+ acc) "" sufs) "/" = false.
Proof.
  induction 1 as [|s sufs Hs _ IH]; [done|]. simpl.
  rewrite ?string_app_cons, ?string_app_nil. simpl.
  by rewrite contains_app, Hs, IH.
Qed.

(** C10.  For a file name made of a stem and several dot-suffixes, the
    suffix the handler extracts is the last one alone, so the last one
    alone decides whether the name passes the extension check.  With the
    sample submission: [a.exe.pdf] is accepted, [a.pdf.exe] is answered
    with the unsupported-type error, and the bare name [.pdf] has an empty
    suffix and is answered with that error too. *)
Theorem C10_last_suffix_decides (stem : string) (sufs : list string) (ext : string) :
  stem ≠ "" → PyStr.contains stem "/" = false →
  Forall (λ s, PyStr.contains s "/" = false) sufs →
  ext ≠ "" → PyStr.contains ext "." = false → PyStr.contains ext "/" = false →
  let fname := (stem +:+ foldr (λ s acc, "." +:+ s +:+ acc) "" sufs) +:+ "." +:+ ext in
  suffix (of_text fname) = "." +:+ ext
  ∧ PyStr.mem (PyStr.lower (suffix (of_text fname))) ALLOWED_EXTENSIONS
    = PyStr.mem (PyStr.lower ("." +:+ ext)) ALLOWED_EXTENSIONS
  ∧ (apply default_config Sample.env (Sample.form "a.exe.pdf") Sample.empty_world).1
    = Return (mkResponse "Application received. Thank you!" 200)
  ∧ apply default_config Sample.env (Sample.form "a.pdf.exe") Sample.empty_world
    = (Return (mkResponse "Unsupported file type. Please upload PDF/DOC/DOCX." 400),
       Sample.empty_world)
  ∧ suffix (of_text ".pdf") = ""
  ∧ apply default_config Sample.env (Sample.form ".pdf") Sample.empty_world
    = (Return (mkResponse "Unsupported file type. Please upload PDF/DOC/DOCX." 400),
       Sample.empty_world).
Proof.
  intros Hstem Hslash Hsufs Hext Hdot Hextslash fname.
  assert (suffix (of_text fname) = "." +:+ ext) as Hsuf.
  { set (pre := stem +:+ foldr (λ s acc, "." +:+ s +:+ acc) "" sufs) in *.
    assert (pre ≠ "") as Hpre by (subst pre; by destruct stem).
    assert (PyStr.contains pre "/" = false) as Hpreslash.
    { subst pre. rewrite contains_app, Hslash. simpl.
      by apply contains_slash_suffixes. }
    change (fname) with (pre +:+ String "." ext).
    assert (name_of (pre +:+ String "." ext) = pre +:+ String "." ext) as Hname.
    { apply name_of_plain.
      - rewrite contains_app, Hpreslash. simpl. by rewrite Hextslash.
      - by destruct pre.
      - destruct pre as [|x [|y pre]]; [done| |done].
        rewrite string_app_cons, string_app_nil. by destruct ext. }
    unfold suffix, of_text. simpl. rewrite Hname.
    by apply suffix_of_name_last. }
  split_and!.
  - done.
  - by rewrite Hsuf.
  - vm_compute. reflexivity.
  - vm_compute. reflexivity.
  - vm_compute. reflexivity.
  - vm_compute. reflexivity.
Qed.

(** The name [a.exe.pdf]: stem [a], suffixes [.exe] and [.pdf]. *)
Lemma C10_witness : suffix (of_text "a.exe.pdf") = ".pdf".
Proof.
  refine (proj1 (C10_last_suffix_decides "a" ["exe"] "pdf" _ _ _ _ _ _)).
  - done.
  - reflexivity.
  - by repeat constructor.
  - done.
  - reflexivity.
  - reflexivity.
Defined.

(** ** Verification *)

(** C5.  [verify_recaptcha] answers true whenever no secret is configured
    or no token was supplied (the token is absent or empty).  Otherwise it
    answers true exactly when the service replied with an object whose
    [success] entry is true in a condition and whose [score] entry (0.0
    when missing) converts to a float that is at least 0.4.  Whatever is
    raised on the way yields false, never an exception: a failed request or
    an unreadable reply, a reply that is not an object, a score that does
    not convert. *)
Theorem C5_verify_recaptcha cfg env token :
  (RECAPTCHA_SECRET cfg = "" ∨ token = PyNone ∨ token = PyStr "" →
     verify_recaptcha cfg env token = true)
  ∧ (RECAPTCHA_SECRET cfg ≠ "" → token ≠ PyNone → token ≠ PyStr "" →
     (∀ data, siteverify env = Some data →
        (verify_recaptcha cfg env token = true ↔
           ∃ success score x,
             json_get data "success" JNull = Some success
             ∧ json_truthy success = true
             ∧ json_get data "score" (JFloat 0) = Some score
             ∧ json_float (float_of_text env) score = Some x
             ∧ PrimFloat.leb min_score x = true))
     ∧ (siteverify env = None → verify_recaptcha cfg env token = false)
     ∧ (∀ data, siteverify env = Some data →
          json_get data "success" JNull = None →
          verify_recaptcha cfg env token = false)
     ∧ (∀ data score, siteverify env = Some data →
          json_get data "score" (JFloat 0) = Some score →
          json_float (float_of_text env) score = None →
          verify_recaptcha cfg env token = false)).
Proof.
  split.
  - intros H. unfold verify_recaptcha.
    destruct (String.eqb_spec (RECAPTCHA_SECRET cfg) ""); [done|].
    destruct H as [?|H]; [done|].
    apply truthy_false_iff in H. by rewrite H.
  - intros Hsecret Htok1 Htok2.
    assert (verify_recaptcha cfg env token =
            default false
              (data ← siteverify env;
               success ← json_get data "success" JNull;
               if negb (json_truthy success) then Some false
               else
                 score ← json_get data "score" (JFloat 0);
                 x ← json_float (float_of_text env) score;
                 Some (PrimFloat.leb min_score x))) as ->.
    { unfold verify_recaptcha.
      destruct (String.eqb_spec (RECAPTCHA_SECRET cfg) ""); [done|].
      destruct (truthy token) eqn:E; [done|].
      apply truthy_false_iff in E. naive_solver. }
    split_and!.
    + intros data ->. simpl. split.
      * destruct (json_get data "success" JNull) as [success|]; [|done]. simpl.
        destruct (json_truthy success) eqn:Es; [|done]. simpl.
        destruct (json_get data "score" (JFloat 0)) as [score|]; [|done]. simpl.
        destruct (json_float _ score) as [x|] eqn:Ex; [|done]. simpl.
        intros Hx. by exists success, score, x.
      * intros (success & score & x & -> & Hs & -> & Hx & Hle). simpl.
        rewrite Hs. simpl. by rewrite Hx.
    + by intros ->.
    + intros data -> Hs. simpl. by rewrite Hs.
    + intros data score -> Hscore Hx. simpl.
      destruct (json_get data "success" JNull) as [success|]; [|done]. simpl.
      destruct (json_truthy success); [|done]. simpl.
      by rewrite Hscore; simpl; rewrite Hx.
Qed.

(** A configured secret, a token, and the reply
    [{"success": true, "score": 0.5}]. *)
Lemma C5_witness :
  verify_recaptcha (mkConfig (mkPath "storage" "applications.xlsx") 15 "secret")
    (mkEnv "2024-01-01T00:00:00"
       (Some (JObject [("success", JBool true); ("score", JFloat 0.5)]))
       (λ _, None) true true true)
    (PyStr "token")
  = true.
Proof.
  set (cfg := mkConfig _ _ _). set (env := mkEnv _ _ _ _ _ _).
  destruct (proj2 (C5_verify_recaptcha cfg env (PyStr "token"))) as [H _];
    [done|done|done|].
  apply (H (JObject [("success", JBool true); ("score", JFloat 0.5)]) eq_refl).
  exists (JBool true), (JFloat 0.5), 0.5%float.
  split_and!; reflexivity.
Defined.

(** ** The worksheet: cells, rows and the grid *)






(** *** [max_row] *)







(** *** Reading rows back *)







(** ** Appending to the log *)

Lemma dict_keys_as_row (r : list (string * string)) : dict_keys (as_row r) = r.*1.
Proof. unfold dict_keys, as_row. by rewrite <- list_fmap_compose. Qed.

Lemma dict_item_as_row_fresh (r : list (string * string)) (k k' v : string) :
  k ≠ k' → dict_item (as_row ((k, v) :: r)) k' = dict_item (as_row r) k'.
Proof. intros Hne. simpl. by rewrite (proj2 (String.eqb_neq k k') Hne). Qed.

(** Indexing a record with its own keys, in order, lists its values. *)
Lemma record_values_in_key_order (r : list (string * string)) :
  NoDup r.*1 →
  dict_item (as_row r) <$> dict_keys (as_row r) = PyStr <$> r.*2.
Proof.
  rewrite dict_keys_as_row.
  induction r as [|[k v] r IH]; [done|].
  intros [Hk Hnd]%NoDup_cons. rewrite !fmap_cons. f_equal.
  - simpl. by rewrite String.eqb_refl.
  - rewrite <- (IH Hnd). apply list_fmap_ext. intros i k' Hk'.
    apply dict_item_as_row_fresh. intros ->.
    apply Hk. by eapply list_elem_of_lookup_2.
Qed.

Lemma convertible_text (l : list string) : forallb convertible (PyStr <$> l) = true.
Proof. by induction l. Qed.


(** The last two steps of [append_to_excel]: the data row goes below
    [_current_row] and the sheet is saved. *)
Lemma append_and_save (env : Env) (ws : Worksheet) (vals : list string) (p : Path) (w : World) :
  save_ok env = true →
  (lift (append ws (PyStr <$> vals)) ≫= (λ ws', save env ws' p)) w
  = (Return (),
     mkWorld (<[p := Xlsx (title ws)
                       (put_row (N.succ_pos (_current_row ws)) 1
                                (PyStr <$> vals) (_cells ws))]> (disk w))
             (uploads w)).
Proof.
  intros Hsave. unfold mbind, Py_bind, lift, append, save.
  rewrite convertible_text, Hsave. done.
Qed.



(** *** The backup path *)




(** *** Opening, recovering, saving *)

Lemma try_except_return {A} (body handler : Py A) classes w a w' :
  body w = (Return a, w') → try_except body classes handler w = (Return a, w').
Proof. unfold try_except. by intros ->. Qed.







(** *** A log without a header *)

(** What [append_to_excel] saves when the log opens, has [max_row] 1 and
    an empty or absent cell A1.  Looking at A1 makes sure the cell exists,
    which puts [_current_row] at 1 even on an empty sheet; the header is
    therefore appended as row 2 and the record as row 3, below whatever
    row 1 held. *)
Lemma headerless_log_saved (cfg : Config) (env : Env) (r : list (string * string))
    (w : World) (t : string) (cells : gmap (positive * positive) PyVal) :
  NoDup r.*1 →
  disk w !! EXCEL_PATH cfg = Some (Xlsx t cells) →
  max_row_of cells = 1%positive →
  (cells !! (1, 1)%positive = None ∨ cells !! (1, 1)%positive = Some PyNone) →
  save_ok env = true →
  append_to_excel cfg env (as_row r) w
  = (Return (),
     mkWorld (<[EXCEL_PATH cfg :=
                  Xlsx t (put_row 3 1 (PyStr <$> r.*2)
                            (put_row 2 1 (PyStr <$> r.*1)
                               (<[(1, 1)%positive := PyNone]> cells)))]> (disk w))
             (uploads w)).
Proof.
  intros Hnd Hdisk Hmax Ha1 Hsave.
  unfold append_to_excel. cbv zeta.
  rewrite record_values_in_key_order, dict_keys_as_row by done.
  unfold mbind at 1, Py_bind at 1, path_exists. rewrite Hdisk.
  rewrite bool_decide_true by eauto.
  rewrite (bind_step _ _ _
             (Some (mkSheet t (put_row 2 1 (PyStr <$> r.*1)
                                 (<[(1, 1)%positive := PyNone]> cells)) 2)) w).
  - erewrite bind_step by reflexivity.
    by rewrite append_and_save.
  - apply try_except_return.
    erewrite bind_step by (unfold load; rewrite Hdisk; reflexivity).
    unfold max_row. cbn [_cells]. rewrite Hmax. cbn [Pos.eqb].
    unfold _get_cell. cbn [_cells].
    destruct Ha1 as [Ha1|Ha1]; rewrite Ha1.
    + unfold _add_cell. cbn [_cells _current_row title].
      assert (N.max 1 (if bool_decide (cells = ∅) then 0%N else 1%N) = 1%N)
        as -> by (case_bool_decide; lia).
      unfold lift, append. rewrite convertible_text. reflexivity.
    + rewrite bool_decide_false
        by (intros Heq; by rewrite Heq, lookup_empty in Ha1).
      rewrite (insert_id cells) by done.
      unfold lift, append. rewrite convertible_text. reflexivity.
Qed.

(** C8 at a log that is a workbook with an empty sheet: the file opens,
    [max_row] is 1 and A1 is absent, so the header branch runs; but the
    saved sheet has three rows, an empty cell as row 1, the header in
    row 2 and the record in row 3.  It is not the header row followed by
    the data row that a newly created log holds. *)
Theorem C8_blank_log_header_lands_in_row_2 :
  ∃ cells,
    append_to_excel default_config Sample.env (as_row Sample.record) Sample.blank_world
    = (Return (), mkWorld {[ EXCEL_PATH default_config := Xlsx "Sheet" cells ]} ∅)
    ∧ max_row_of cells = 3%positive
    ∧ row_values cells 1 = [PyNone]
    ∧ row_values cells 2 = PyStr <$> Sample.record.*1
    ∧ row_values cells 3 = PyStr <$> Sample.record.*2
    ∧ cells ≠ grid [PyStr <$> Sample.record.*1; PyStr <$> Sample.record.*2].
Proof.
  eexists. split_and!.
  - rewrite (headerless_log_saved _ _ _ _ "Sheet" ∅).
    + unfold Sample.blank_world. cbn [disk uploads].
      rewrite insert_singleton_eq. reflexivity.
    + by_evaluation.
    + reflexivity.
    + reflexivity.
    + by left.
    + reflexivity.
  - vm_compute. reflexivity.
  - vm_compute. reflexivity.
  - vm_compute. reflexivity.
  - vm_compute. reflexivity.
  - intros Heq. apply (f_equal (λ m : cellmap, m !! (1, 1)%positive)) in Heq.
    vm_compute in Heq. discriminate.
Qed.

(** ** Worked examples *)

(** [pathlib] and [os.path] on typical file names. *)
Example path_examples :
  suffix (of_text "cv.PDF") = ".PDF"
  ∧ suffix (of_text "dir/a.tar.gz") = ".gz"
  ∧ suffix (of_text ".pdf") = ""
  ∧ suffix (of_text "a.") = ""
  ∧ of_text "/srv/app/storage/applications.xlsx"
    = mkPath "/srv/app/storage" "applications.xlsx"
  ∧ Posixpath.basename "../../etc/x.pdf" = "x.pdf"
  ∧ with_suffix (mkPath "storage" "applications.xlsx") ".bad.xlsx"
    = Some (mkPath "storage" "applications.bad.xlsx")
  ∧ with_suffix (mkPath "storage" "log") ".bad.xlsx"
    = Some (mkPath "storage" "log.bad.xlsx").
Proof. repeat split; vm_compute; reflexivity. Qed.

(** Text helpers. *)
Example text_examples :
  PyStr.strip "  a b  " = "a b"
  ∧ PyStr.join ", " ["name"; "email"; "resume"] = "name, email, resume"
  ∧ PyStr.of_int 15 = "15"
  ∧ PyStr.of_int (-3) = "-3"
  ∧ PyStr.lower "Cv.PdF" = "cv.pdf".
Proof. repeat split; vm_compute; reflexivity. Qed.

(** The scenario of the specification: a complete application with
    [cv.pdf] and no secret configured is answered 200, the upload directory
    then holds [cv.pdf], and the new log holds the header and one row that
    ends in [cv.pdf]. *)
Example scenario_accepted :
  apply default_config Sample.env (Sample.form "cv.pdf") Sample.empty_world
  = (Return (mkResponse "Application received. Thank you!" 200),
     mkWorld {[ EXCEL_PATH default_config :=
                  Xlsx "Applications"
                    (grid [PyStr <$> Sample.record.*1; PyStr <$> Sample.record.*2]) ]}
             {[ "cv.pdf" := [Byte.x25] ]}).
Proof. vm_compute. reflexivity. Qed.

(** A reply whose score is an integer too large for a float makes the
    conversion raise, and the verification answers false. *)
Example huge_score_fails_closed :
  verify_recaptcha (mkConfig (mkPath "storage" "applications.xlsx") 15 "secret")
    (mkEnv "2024-01-01T00:00:00"
       (Some (JObject [("success", JBool true); ("score", JInt (10 ^ 400))]))
       (λ _, None) true true true)
    (PyStr "token")
  = false.
Proof. vm_compute. reflexivity. Qed.

(** A second append to a log that started as an empty sheet goes to
    row 4: the empty first row stays. *)
Example blank_log_second_append :
  let w1 := (append_to_excel default_config Sample.env (as_row Sample.record)
               Sample.blank_world).2 in
  let r2 := append_to_excel default_config Sample.env (as_row Sample.record) w1 in
  r2.1 = Return ()
  ∧ (match disk r2.2 !! EXCEL_PATH default_config with
     | Some (Xlsx _ cells) =>
         Some (max_row_of cells, row_values cells 1, row_values cells 4)
     | _ => None
     end)
    = Some (4%positive, [PyNone], PyStr <$> Sample.record.*2).
Proof. split; vm_compute; reflexivity. Qed.

(** * Further properties of the code *)

Import Runs.

(** ** What a computation leaves alone *)

Section Frame.
Context {R : World → World → Prop} `{!PreOrder R}.

Lemma stays_ret {A} (a : A) : stays_within R (mret a : Py A).
Proof. intros w. simpl. reflexivity. Qed.

Lemma stays_raise {A} (e : PyExc) : stays_within R (raise e : Py A).
Proof. intros w. simpl. reflexivity. Qed.

Lemma stays_lift {A} (o : outcome A) : stays_within R (lift o).
Proof. intros w. simpl. reflexivity. Qed.

Lemma stays_bind {A B} (m : Py A) (k : A → Py B) :
  stays_within R m → (∀ a, stays_within R (k a)) → stays_within R (m ≫= k).
Proof.
  intros Hm Hk w. specialize (Hm w). unfold mbind, Py_bind.
  destruct (m w) as [[a|e] w1]; simpl in *; [|done].
  etrans; [done|]. apply Hk.
Qed.

Lemma stays_try_except {A} (body handler : Py A) classes :
  stays_within R body → stays_within R handler →
  stays_within R (try_except body classes handler).
Proof.
  intros Hb Hh w. specialize (Hb w). unfold try_except.
  destruct (body w) as [[a|e] w1]; simpl in *; [done|].
  case_bool_decide; [|done]. etrans; [done|]. apply Hh.
Qed.

Lemma stays_try_pass (body : Py unit) :
  stays_within R body → stays_within R (try_pass body).
Proof.
  intros Hb w. specialize (Hb w). unfold try_pass.
  by destruct (body w) as [[a|e] w1].
Qed.

Lemma stays_path_exists (p : Path) : stays_within R (path_exists p).
Proof. intros w. simpl. reflexivity. Qed.

Lemma stays_load (p : Path) : stays_within R (load p).
Proof. intros w. unfold load. destruct (disk w !! p); simpl; reflexivity. Qed.

End Frame.

(** A weaker frame holds wherever a stronger one does. *)
Lemma stays_within_weaken {A} (R R' : World → World → Prop) (m : Py A) :
  (∀ w w', R w w' → R' w w') → stays_within R m → stays_within R' m.
Proof. intros HR Hm w. apply HR, Hm. Qed.

Lemma stays_rename (env : Env) (src dst : Path) (paths : list Path) :
  src ∈ paths → dst ∈ paths → stays_within (log_frame paths) (rename env src dst).
Proof.
  intros Hsrc Hdst w. unfold rename.
  destruct (disk w !! src); [|done].
  destruct (rename_ok env); [|done].
  split; [done|]. intros p Hp. simpl.
  rewrite lookup_insert_ne, lookup_delete_ne; [done|..]; by intros ->.
Qed.

Lemma stays_save (env : Env) (ws : Worksheet) (p : Path) (paths : list Path) :
  p ∈ paths → stays_within (log_frame paths) (save env ws p).
Proof.
  intros Hin w. unfold save. destruct (save_ok env); [|done].
  split; [done|]. intros q Hq. simpl.
  rewrite lookup_insert_ne; [done|]. by intros ->.
Qed.

Lemma stays_new_wb_with_header {R : World → World → Prop} `{!PreOrder R}
    (keys : list string) :
  stays_within R (_new_wb_with_header keys).
Proof. apply stays_lift. Qed.

(** [append_to_excel] never touches the upload directory, and on disk it
    touches nothing but the log path and the backup path. *)
Lemma append_to_excel_stays (cfg : Config) (env : Env) (row : list (string * PyVal)) :
  stays_within (log_frame (log_paths cfg)) (append_to_excel cfg env row).
Proof.
  assert (EXCEL_PATH cfg ∈ log_paths cfg) as Hlog by left.
  unfold append_to_excel. cbv zeta.
  apply stays_bind; [apply stays_path_exists|]. intros present.
  apply stays_bind.
  - destruct present.
    + apply stays_try_except.
      * apply stays_bind; [apply stays_load|]. intros ws.
        destruct (max_row ws =? 1)%positive; [|apply stays_ret].
        destruct (_get_cell ws 1 1) as [ws' a1].
        destruct a1; try apply stays_ret.
        apply stays_bind; [apply stays_lift|]. intros ?. apply stays_ret.
      * destruct (with_suffix (EXCEL_PATH cfg) ".bad.xlsx") as [backup|] eqn:Hb;
          [|apply stays_raise].
        apply stays_bind.
        { apply stays_try_pass, stays_rename; [done|].
          unfold log_paths. rewrite Hb. right. left. }
        intros _. apply stays_bind; [apply stays_new_wb_with_header|].
        intros ?. apply stays_ret.
    + apply stays_bind; [apply stays_new_wb_with_header|].
      intros ?. apply stays_ret.
  - intros opened. apply stays_bind.
    { destruct opened; [apply stays_ret|apply stays_new_wb_with_header]. }
    intros ws. apply stays_bind; [apply stays_lift|].
    intros ws'. by apply stays_save.
Qed.

(** ** The append cursor stays below every cell *)






(** ** What [append_to_excel] guarantees whenever it returns *)






(** X3.  Whatever it is given and however it ends, [append_to_excel]
    leaves the upload directory as it was and changes nothing on disk
    except at the log path and at the backup path. *)
Theorem append_to_excel_touches_only_log_and_backup (cfg : Config) (env : Env)
    (row : list (string * PyVal)) (w : World) :
  uploads (append_to_excel cfg env row w).2 = uploads w
  ∧ ∀ p, p ≠ EXCEL_PATH cfg →
         with_suffix (EXCEL_PATH cfg) ".bad.xlsx" ≠ Some p →
         disk (append_to_excel cfg env row w).2 !! p = disk w !! p.
Proof.
  destruct (append_to_excel_stays cfg env row w) as [Hup Hdisk].
  split; [done|]. intros p Hp Hb. apply Hdisk.
  unfold log_paths. intros [->|Hin]%elem_of_cons; [done|].
  destruct (with_suffix (EXCEL_PATH cfg) ".bad.xlsx") as [b|]; simpl in Hin.
  - apply list_elem_of_singleton in Hin as ->. done.
  - by apply not_elem_of_nil in Hin.
Qed.

(** X4.  A log that fails to open with an exception outside the four
    caught classes is left alone: the exception propagates, nothing is
    renamed and nothing is saved. *)
Theorem append_to_excel_uncaught_error_propagates (cfg : Config) (env : Env)
    (row : list (string * PyVal)) (w : World) (raw : list Byte.byte) (e : PyExc) :
  disk w !! EXCEL_PATH cfg = Some (Damaged raw e) →
  e ∉ [InvalidFileException; BadZipFile; KeyError; OSError] →
  append_to_excel cfg env row w = (Raise e, w).
Proof.
  intros Hdisk He. unfold append_to_excel. cbv zeta.
  unfold mbind at 1, Py_bind at 1, path_exists. rewrite Hdisk.
  rewrite bool_decide_true by eauto.
  apply bind_raise. unfold try_except.
  erewrite bind_raise by (unfold load; rewrite Hdisk; reflexivity).
  by rewrite bool_decide_false.
Qed.

(** A log whose reading ends in a [ValueError]. *)
Lemma append_to_excel_uncaught_error_propagates_witness :
  let w := mkWorld {[ EXCEL_PATH default_config := Damaged [Byte.x50; Byte.x4b] ValueError ]} ∅ in
  append_to_excel default_config Sample.env (as_row Sample.record) w = (Raise ValueError, w).
Proof.
  intros w.
  apply (append_to_excel_uncaught_error_propagates _ _ _ _ [Byte.x50; Byte.x4b]).
  - reflexivity.
  - by_evaluation.
Defined.

(** ** A log built by successive appends *)






(** ** The handler, end to end *)





(** How an answer of [apply] came about: one of the four rejections, each
    with the world untouched, or the answer of the storing half after all
    four checks have passed. *)
Lemma apply_Return_cases (cfg : Config) (env : Env) (form : list (string * PyVal))
    (w w' : World) (r : JSONResponse) :
  apply cfg env form w = (Return r, w') →
  (missing_fields form ≠ [] ∧ w' = w
   ∧ r = mkResponse ("Missing fields: " +:+ PyStr.join ", " (missing_fields form)) 400)
  ∨ (missing_fields form = []
     ∧ verify_recaptcha cfg env (form_get form "recaptcha_token" (PyStr "")) = false
     ∧ w' = w ∧ r = mkResponse "reCAPTCHA verification failed." 400)
  ∨ (∃ u, form_get form "resume" PyNone = PyUpload u
          ∧ missing_fields form = []
          ∧ verify_recaptcha cfg env (form_get form "recaptcha_token" (PyStr "")) = true
          ∧ ((MAX_UPLOAD_MB cfg * 1024 * 1024 < Z.of_nat (length (content u)))%Z
             ∧ w' = w
             ∧ r = mkResponse ("File too large (>" +:+ PyStr.of_int (MAX_UPLOAD_MB cfg)
                               +:+ "MB).") 400
             ∨ (Z.of_nat (length (content u)) ≤ MAX_UPLOAD_MB cfg * 1024 * 1024)%Z
               ∧ (PyStr.mem (PyStr.lower (suffix (of_text (filename u))))
                    ALLOWED_EXTENSIONS = false
                  ∧ w' = w
                  ∧ r = mkResponse "Unsupported file type. Please upload PDF/DOC/DOCX." 400
                  ∨ PyStr.mem (PyStr.lower (suffix (of_text (filename u))))
                      ALLOWED_EXTENSIONS = true
                    ∧ apply_store cfg env form u (content u) w = (Return r, w')))).
Proof.
  unfold apply. cbv zeta.
  case_bool_decide as Hmiss; simpl.
  2:{ intros [= <- <-]. by left. }
  destruct (verify_recaptcha _ _ _) eqn:Hver; simpl.
  2:{ intros [= <- <-]. right. by left. }
  destruct (form_get form "resume" PyNone) as [| |u] eqn:Hres; [done|done|].
  intros H. right. right. exists u. split_and!; [done..|].
  destruct (_ <? _)%Z eqn:Hsize.
  { injection H as <- <-. left. split; [by apply Z.ltb_lt|done]. }
  right. split; [by apply Z.ltb_ge|].
  destruct (PyStr.mem _ _) eqn:Hext; simpl in H.
  - by right.
  - injection H as <- <-. by left.
Qed.

(** X6.  The handler answers with status 200 or 400 only, and a 400 leaves
    everything as it was: no rejection writes an upload, renames or saves
    the log. *)
Theorem rejection_changes_nothing (cfg : Config) (env : Env)
    (form : list (string * PyVal)) (w w' : World) (r : JSONResponse) :
  apply cfg env form w = (Return r, w') →
  (status_code r = 400%Z ∧ w' = w)
  ∨ r = mkResponse "Application received. Thank you!" 200.
Proof.
  intros H. apply apply_Return_cases in H
    as [(_ & -> & ->)|[(_ & _ & -> & ->)|(u & _ & _ & _ & [(_ & -> & ->)|(_ & [(_ & -> & ->)|(_ & H)])])]];
    try (by left).
  right. by eapply apply_store_response.
Qed.

(** The [.exe] résumé: status 400 and an untouched world. *)
Lemma rejection_changes_nothing_witness :
  (apply default_config Sample.env (Sample.form "cv.exe") Sample.log_world).2
  = Sample.log_world.
Proof.
  destruct (rejection_changes_nothing default_config Sample.env (Sample.form "cv.exe")
              Sample.log_world
              (apply default_config Sample.env (Sample.form "cv.exe") Sample.log_world).2
              (mkResponse "Unsupported file type. Please upload PDF/DOC/DOCX." 400))
    as [[_ H]|H].
  - vm_compute. reflexivity.
  - exact H.
  - discriminate H.
Defined.



(** *** What the handler can touch *)

Lemma stays_write_bytes (env : Env) (n : string) (data : list Byte.byte) (paths : list Path) :
  stays_within (store_frame n paths) (write_bytes env n data).
Proof.
  intros w. unfold write_bytes. case_bool_decide; [done|].
  destruct (write_ok env); [|done]. split; [|done].
  intros k Hk. simpl. by rewrite lookup_insert_ne.
Qed.

Lemma stays_or_empty_strip {R : World → World → Prop} `{!PreOrder R} (v : PyVal) :
  stays_within R (or_empty_strip v).
Proof.
  unfold or_empty_strip. destruct (if truthy v then v else PyStr "");
    (apply stays_ret || apply stays_raise).
Qed.

Lemma stays_join_values {R : World → World → Prop} `{!PreOrder R}
    (sep : string) (vs : list PyVal) :
  stays_within R (join_values sep vs).
Proof.
  unfold join_values. destruct (mapM _ vs); (apply stays_ret || apply stays_raise).
Qed.

Lemma apply_store_stays (cfg : Config) (env : Env) (form : list (string * PyVal))
    (u : UploadFile) (data : list Byte.byte) :
  stays_within (store_frame (Posixpath.basename (filename u)) (log_paths cfg))
               (apply_store cfg env form u data).
Proof.
  unfold apply_store. cbv zeta.
  apply stays_bind; [apply stays_write_bytes|]. intros _.
  apply stays_bind; [apply stays_or_empty_strip|]. intros links.
  apply stays_bind; [apply stays_or_empty_strip|]. intros why.
  apply stays_bind; [apply stays_join_values|]. intros expertise.
  apply stays_bind; [|intros _; apply stays_ret].
  eapply stays_within_weaken; [|apply append_to_excel_stays].
  intros w1 w2 [Hup Hd]. split; [|done]. intros k _. by rewrite Hup.
Qed.

(** The basename of a path holds no slash. *)
Lemma rfind_negative_absent (s : string) (c : ascii) :
  (PyStr.rfind s c < 0)%Z → PyStr.contains s c = false.
Proof.
  induction s as [|x s IH]; simpl; [done|].
  destruct (0 <=? PyStr.rfind s c)%Z eqn:E.
  - apply Z.leb_le in E. lia.
  - apply Z.leb_gt in E. destruct (Ascii.eqb x c); [lia|]. intros _. by apply IH.
Qed.

Lemma basename_no_slash (p : string) :
  PyStr.contains (Posixpath.basename p) "/" = false.
Proof.
  unfold Posixpath.basename. cbv zeta.
  induction p as [|x p IH]; [done|]. simpl PyStr.rfind.
  pose proof (rfind_lower_bound p "/") as Hlb.
  destruct (0 <=? PyStr.rfind p "/")%Z eqn:E.
  - apply Z.leb_le in E.
    replace (Z.to_nat (PyStr.rfind p "/" + 1 + 1)) with (S (Z.to_nat (PyStr.rfind p "/" + 1)))
      by lia.
    exact IH.
  - apply Z.leb_gt in E.
    assert (PyStr.contains p "/" = false) as Hp by (apply rfind_negative_absent; lia).
    destruct (Ascii.eqb x "/") eqn:Ex; simpl.
    + exact Hp.
    + by rewrite Ex, Hp.
Qed.

(** X8.  However a call of the handler ends, in the upload directory it
    has changed at most the file named by the basename of the résumé's
    file name, and no name with a slash in it: a client-chosen path cannot
    make it write elsewhere.  On disk it has changed at most the log and
    its backup. *)
Theorem apply_touches_only_its_files (cfg : Config) (env : Env)
    (form : list (string * PyVal)) (w : World) :
  let w' := (apply cfg env form w).2 in
  (∀ k, k ≠ Posixpath.basename (getattr_filename (form_get form "resume" PyNone)) →
        uploads w' !! k = uploads w !! k)
  ∧ (∀ k, PyStr.contains k "/" = true → uploads w' !! k = uploads w !! k)
  ∧ (∀ p, p ≠ EXCEL_PATH cfg →
          with_suffix (EXCEL_PATH cfg) ".bad.xlsx" ≠ Some p →
          disk w' !! p = disk w !! p).
Proof.
  intros w'.
  assert (store_frame (Posixpath.basename (getattr_filename (form_get form "resume" PyNone)))
            (log_paths cfg) w w') as [Hup Hdisk].
  { subst w'. unfold apply. cbv zeta.
    destruct (negb _); [done|].
    destruct (negb _); [done|].
    destruct (form_get form "resume" PyNone) as [| |u]; [done|done|].
    destruct (_ <? _)%Z; [done|].
    destruct (negb _); [done|].
    apply apply_store_stays. }
  split_and!.
  - done.
  - intros k Hk. apply Hup. intros ->. by rewrite basename_no_slash in Hk.
  - intros p Hp Hb. apply Hdisk.
    unfold log_paths. intros [->|Hin]%elem_of_cons; [done|].
    destruct (with_suffix (EXCEL_PATH cfg) ".bad.xlsx") as [b|]; simpl in Hin.
    + apply list_elem_of_singleton in Hin as ->. done.
    + by apply not_elem_of_nil in Hin.
Qed.

(** *** Verification inside the handler *)

(** X9.  A submission that carries no token (none sent, or an empty one)
    is never answered with the verification failure, whatever secret is
    configured and whatever the service would say: the check is skipped
    for it. *)
Theorem missing_token_skips_verification (cfg : Config) (env : Env)
    (form : list (string * PyVal)) (w : World) :
  truthy (form_get form "recaptcha_token" (PyStr "")) = false →
  (apply cfg env form w).1 ≠ Return (mkResponse "reCAPTCHA verification failed." 400).
Proof.
  intros Htok.
  assert (verify_recaptcha cfg env (form_get form "recaptcha_token" (PyStr "")) = true)
    as Hver by (unfold verify_recaptcha; by rewrite Htok, orb_true_r).
  destruct (apply cfg env form w) as [[r|e] w'] eqn:H; [|done]. simpl.
  apply apply_Return_cases in H
    as [(_ & _ & ->)|[(_ & Hno & _)|(u & _ & _ & _ & [(_ & _ & ->)|(_ & [(_ & _ & ->)|(_ & H)])])]];
    try done.
  - congruence.
  - apply apply_store_response in H as ->. done.
Qed.

(** A secret is configured and the service is unreachable, yet the sample
    submission, which has no token, is not stopped by the verification. *)
Lemma missing_token_skips_verification_witness :
  (apply (mkConfig (mkPath "storage" "applications.xlsx") 15 "secret") Sample.env
         (Sample.form "cv.pdf") Sample.empty_world).1
  ≠ Return (mkResponse "reCAPTCHA verification failed." 400).
Proof.
  apply missing_token_skips_verification. reflexivity.
Defined.

(** X10.  With a secret configured and a token sent, a verification
    service that cannot be reached (or whose reply cannot be read) makes
    the handler reject every submission that has all its fields: status
    400 with the verification message, and nothing is stored. *)
Theorem unreachable_service_rejects (cfg : Config) (env : Env)
    (form : list (string * PyVal)) (w : World) :
  RECAPTCHA_SECRET cfg ≠ "" →
  truthy (form_get form "recaptcha_token" (PyStr "")) = true →
  siteverify env = None →
  missing_fields form = [] →
  apply cfg env form w
  = (Return (mkResponse "reCAPTCHA verification failed." 400), w).
Proof.
  intros Hsecret Htok Hdown Hmiss. unfold apply. cbv zeta. rewrite Hmiss. simpl.
  unfold verify_recaptcha.
  rewrite (proj2 (String.eqb_neq _ _) Hsecret), Htok, Hdown. done.
Qed.

(** The sample submission with a token, a secret, and no service. *)
Lemma unreachable_service_rejects_witness :
  apply (mkConfig (mkPath "storage" "applications.xlsx") 15 "secret") Sample.env
        (Sample.form "cv.pdf" ++ [("recaptcha_token", PyStr "tok")]) Sample.empty_world
  = (Return (mkResponse "reCAPTCHA verification failed." 400), Sample.empty_world).
Proof.
  apply unreachable_service_rejects; [done|reflexivity|reflexivity|reflexivity].
Defined.

(** X11.  When verification is active, a reply that carries no [score]
    entry is treated as score 0.0 and fails, even if it reports success. *)
Theorem reply_without_score_fails (cfg : Config) (env : Env) (token : PyVal)
    (fields : list (string * Json)) :
  RECAPTCHA_SECRET cfg ≠ "" →
  truthy token = true →
  siteverify env = Some (JObject fields) →
  fields_get fields "score" = None →
  verify_recaptcha cfg env token = false.
Proof.
  intros Hsecret Htok Hreply Hscore. unfold verify_recaptcha.
  rewrite (proj2 (String.eqb_neq _ _) Hsecret), Htok, Hreply. simpl.
  destruct (json_truthy _); [|done]. simpl. by rewrite Hscore.
Qed.

(** The reply [{"success": true}]. *)
Lemma reply_without_score_fails_witness :
  verify_recaptcha (mkConfig (mkPath "storage" "applications.xlsx") 15 "secret")
    (mkEnv "2024-01-01T00:00:00" (Some (JObject [("success", JBool true)]))
       (λ _, None) true true true)
    (PyStr "token")
  = false.
Proof.
  apply (reply_without_score_fails _ _ _ [("success", JBool true)]);
    [done|reflexivity|reflexivity|reflexivity].
Defined.

(** *** A complete submission *)










(** *** The stored file name *)

(** X14.  The stored name is what follows the last slash of the file name
    the client sent: every directory part is dropped, and a name without a
    slash is kept as it is. *)
Theorem basename_drops_directories (dir name : string) :
  PyStr.contains name "/" = false →
  Posixpath.basename (dir +:+ "/" +:+ name) = name
  ∧ Posixpath.basename name = name.
Proof.
  intros Hname. unfold Posixpath.basename. cbv zeta. split.
  - change ("/" +:+ name) with (String "/" name).
    rewrite rfind_last by done. unfold PyStr.len.
    replace (Z.to_nat (Z.of_nat (String.length dir) + 1))
      with (String.length (dir +:+ "/")) by (rewrite string_length_app; simpl; lia).
    change (String "/" name) with ("/" +:+ name).
    rewrite <- string_app_assoc. apply slice_from_app.
  - by rewrite rfind_absent.
Qed.

(** A file name sent with a relative path that climbs out of the upload
    directory. *)
Lemma basename_drops_directories_witness :
  Posixpath.basename "../../etc/cron.d/job.pdf" = "job.pdf".
Proof.
  apply (proj1 (basename_drops_directories "../../etc/cron.d" "job.pdf" eq_refl)).
Defined.

(** A file name that ends in a slash names the same final component as
    without it, and has an empty basename. *)
Lemma split_at_separator (s t : string) (c : ascii) :
  PyStr.contains s c = false →
  PyStr.split c (s +:+ String c t) = s :: PyStr.split c t.
Proof.
  induction s as [|x s IH]; intros H.
  - rewrite string_app_nil. simpl. by rewrite Ascii.eqb_refl.
  - rewrite string_app_cons. simpl in *.
    apply orb_false_iff in H as [Hx Hs]. by rewrite Hx, (IH Hs).
Qed.

Lemma name_of_trailing_slash (s : string) :
  PyStr.contains s "/" = false → s ≠ "" → s ≠ "." → name_of (s +:+ "/") = s.
Proof.
  intros Hs H1 H2. unfold name_of.
  change "/" with (String "/" ""). rewrite split_at_separator by done. simpl.
  rewrite filter_cons_True by done. rewrite filter_cons_False by naive_solver. done.
Qed.

Lemma basename_trailing_slash (s : string) :
  PyStr.contains s "/" = false → Posixpath.basename (s +:+ "/") = "".
Proof.
  intros Hs. unfold Posixpath.basename. cbv zeta.
  change "/" with (String "/" ""). rewrite rfind_last by done. unfold PyStr.len.
  replace (Z.to_nat (Z.of_nat (String.length s) + 1))
    with (String.length (s +:+ String "/" "")) by (rewrite string_length_app; simpl; lia).
  rewrite <- (slice_from_app (s +:+ String "/" "") "") at 2.
  f_equal. induction s as [|x s IH]; [done|].
  rewrite !string_app_cons. f_equal. apply IH. simpl in Hs.
  by apply orb_false_iff in Hs as [_ ?].
Qed.

(** X15.  The extension check and the stored name read the file name
    differently.  A name that ends in a slash after an allowed extension
    (such as [cv.pdf/]) passes the extension check, because the path
    parser drops the trailing slash, but the stored name is what follows
    the last slash, which is empty: the write goes to the upload directory
    itself and fails.  Such a submission, having passed the other checks,
    ends in the storage error with nothing stored, not in a 400. *)
Theorem trailing_slash_name_fails_at_write (cfg : Config) (env : Env)
    (form : list (string * PyVal)) (w : World) (u : UploadFile) (s : string) :
  form_get form "resume" PyNone = PyUpload u →
  filename u = s +:+ "/" →
  PyStr.contains s "/" = false → s ≠ "" → s ≠ "." →
  PyStr.mem (PyStr.lower (suffix_of_name s)) ALLOWED_EXTENSIONS = true →
  missing_fields form = [] →
  verify_recaptcha cfg env (form_get form "recaptcha_token" (PyStr "")) = true →
  (Z.of_nat (length (content u)) ≤ MAX_UPLOAD_MB cfg * 1024 * 1024)%Z →
  apply cfg env form w = (Raise OSError, w).
Proof.
  intros Hres Hname Hs H1 H2 Hext Hmiss Hver Hsize.
  rewrite (apply_at_extension_check _ _ _ _ u) by done.
  rewrite Hname. unfold suffix, of_text. cbn [name].
  rewrite name_of_trailing_slash, Hext by done.
  unfold apply_store. cbv zeta. apply bind_raise.
  rewrite Hname, basename_trailing_slash by done. reflexivity.
Qed.

(** The résumé is sent as [cv.pdf/]. *)
Lemma trailing_slash_name_fails_at_write_witness :
  apply default_config Sample.env (Sample.form "cv.pdf/") Sample.empty_world
  = (Raise OSError, Sample.empty_world).
Proof.
  apply (trailing_slash_name_fails_at_write _ _ _ _ (mkUpload "cv.pdf/" [Byte.x25]) "cv.pdf");
    try reflexivity; done.
Defined.
